(** * gee-exporter: a shallow embedding of [imageExporter.py]

    The development follows the source file top-down: Python numbers and
    strings, the dataset table [dico], [boundingBox], the [retry] decorator,
    [generateURL], and the [__main__] block (resume filter and dispatch
    loop).  The Earth Engine service, the HTTP client and the clock are
    outside the program: they appear as an oracle ([remote]) and as a trace
    of the calls the program makes. *)

From Stdlib Require Import ZArith List String Ascii Bool Lia Reals Lra.
From Stdlib Require Import Floats.SpecFloat.
From stdpp Require Import base option list strings gmap.

Local Open Scope string_scope.
Local Open Scope Z_scope.

(** ** Python floats: IEEE 754 binary64

    Python's [float] is the C [double].  Values are [spec_float]s of
    precision 53 and maximal exponent 1024, always in canonical form; the
    operations round to nearest, ties to even. *)

Module Float64.

Definition prec : Z := 53.
Definition emax : Z := 1024.

Definition float := spec_float.

Definition of_Z (z : Z) : float := binary_normalize prec emax z 0 false.
Definition add : float -> float -> float := SFadd prec emax.
Definition sub : float -> float -> float := SFsub prec emax.
Definition mul : float -> float -> float := SFmul prec emax.
Definition div : float -> float -> float := SFdiv prec emax.
Definition eqb : float -> float -> bool := SFeqb.
Definition ltb : float -> float -> bool := SFltb.

(** The quotient of two integers, rounded once. *)
Definition div_Z (a b : Z) : float :=
match a, b with
| 0, _ => S754_zero (b <? 0)
| _, 0 => S754_nan
| _, _ =>
    SFdiv prec emax (S754_finite (a <? 0) (Z.to_pos (Z.abs a)) 0)
                    (S754_finite (b <? 0) (Z.to_pos (Z.abs b)) 0)
end.

(** [m * 10^e], rounded once: the value of a decimal literal. *)
Definition of_decimal (neg : bool) (m : Z) (e : Z) : float :=
if m =? 0 then S754_zero neg
else
  let sm := if neg then - m else m in
  if 0 <=? e then binary_normalize prec emax (sm * 10 ^ e) 0 false
  else div_Z sm (10 ^ (- e)).

(** [Py_MATH_PI], the double nearest to pi. *)
Definition pi : float := S754_finite false 7074237752028440 (-51).

(** [radToDeg = 180.0 / Py_MATH_PI] of CPython's [mathmodule.c]. *)
Definition radToDeg : float := div (of_Z 180) pi.

End Float64.

Abbreviation float := Float64.float.

(** ** Python numbers

    The program mixes [int] (512, 30, 6371000) and [float] (0.6, 0.5, the
    coordinates).  [int * int] is exact; every other product, and every
    true division, is a float.  Integers beyond the binary64 range, on which
    Python raises [OverflowError], and division by zero, on which it raises
    [ZeroDivisionError], are not reached by the program (its only divisor is
    the literal 6371000) and follow IEEE here. *)

Inductive pynum :=
  | PyInt (z : Z)
  | PyFloat (f : float).

Module PyNum.

Definition to_float (n : pynum) : float :=
match n with
| PyInt z => Float64.of_Z z
| PyFloat f => f
end.

Definition add (a b : pynum) : pynum :=
match a, b with
| PyInt x, PyInt y => PyInt (x + y)
| _, _ => PyFloat (Float64.add (to_float a) (to_float b))
end.

Definition sub (a b : pynum) : pynum :=
match a, b with
| PyInt x, PyInt y => PyInt (x - y)
| _, _ => PyFloat (Float64.sub (to_float a) (to_float b))
end.

Definition mul (a b : pynum) : pynum :=
match a, b with
| PyInt x, PyInt y => PyInt (x * y)
| _, _ => PyFloat (Float64.mul (to_float a) (to_float b))
end.

Definition truediv (a b : pynum) : pynum :=
match a, b with
| PyInt x, PyInt y => PyFloat (Float64.div_Z x y)
| _, _ => PyFloat (Float64.div (to_float a) (to_float b))
end.

(** [math.degrees(x)] is [x * radToDeg] on the double of [x]. *)
Definition degrees (a : pynum) : pynum :=
PyFloat (Float64.mul (to_float a) Float64.radToDeg).

(** [a < b] and [a == b]; an [int] operand is compared by its double. *)
Definition ltb (a b : pynum) : bool :=
match a, b with
| PyInt x, PyInt y => x <? y
| _, _ => Float64.ltb (to_float a) (to_float b)
end.

Definition eqb (a b : pynum) : bool :=
match a, b with
| PyInt x, PyInt y => x =? y
| _, _ => Float64.eqb (to_float a) (to_float b)
end.

End PyNum.

(** The arithmetic [boundingBox] uses, as an interface: Python evaluates it
    on [pynum]; the real numbers give the same formulas without rounding. *)

Class Arith (T : Type) := {
  of_int : Z -> T;
  half : T;
  num_add : T -> T -> T;
  num_sub : T -> T -> T;
  num_mul : T -> T -> T;
  num_truediv : T -> T -> T;
  num_degrees : T -> T
}.

#[export] Instance pynum_arith : Arith pynum := {|
  of_int := PyInt;
  half := PyFloat (Float64.of_decimal false 5 (-1));
  num_add := PyNum.add;
  num_sub := PyNum.sub;
  num_mul := PyNum.mul;
  num_truediv := PyNum.truediv;
  num_degrees := PyNum.degrees
|}.


(** ** [boundingBox] (lines 70-79) *)

Definition angular_distance {T} `{Arith T} (size res : T) : T :=
  let earth_radius := of_int 6371000 in
  num_degrees (num_mul half (num_truediv (num_mul size res) earth_radius)).

Definition boundingBox {T} `{Arith T} (lat lon size res : T) : T * T * T * T :=
  let osLat := angular_distance size res in
  let osLon := angular_distance size res in
  let xMin := num_sub lon osLon in
  let xMax := num_add lon osLon in
  let yMin := num_sub lat osLat in
  let yMax := num_add lat osLat in
  (xMin, xMax, yMin, yMax).

(** ** Python strings

    [str.replace], [str.split] on a one-character separator, and the
    constructor [float(s)]. *)

Module PyStr.

Fixpoint replace_from (old new : string) (skip : nat) (s : string) : string :=
match s with
| EmptyString => EmptyString
| String c s' =>
    match skip with
    | S k => replace_from old new k s'
    | O =>
        if String.prefix old s
        then new +:+ replace_from old new (Nat.pred (String.length old)) s'
        else String c (replace_from old new O s')
    end
end.

(** [s.replace(old, new)] for a non-empty [old]: every occurrence, left to
  right, without overlap. *)
Definition replace (old new s : string) : string := replace_from old new O s.

Fixpoint split_from (sep : ascii) (cur : string) (s : string) : list string :=
match s with
| EmptyString => [String.rev cur]
| String c s' =>
    if Ascii.eqb c sep then String.rev cur :: split_from sep EmptyString s'
    else split_from sep (String c cur) s'
end.

(** [s.split(sep)] for a separator of one character. *)
Definition split (sep : ascii) (s : string) : list string :=
split_from sep EmptyString s.

Definition digit (c : ascii) : option Z :=
let n := Z.of_nat (nat_of_ascii c) in
if (48 <=? n) && (n <=? 57) then Some (n - 48) else None.

(** Reads a run of digits: its value on top of [acc], how many there were,
  and what follows. *)
Fixpoint take_digits (acc count : Z) (l : list ascii) : Z * Z * list ascii :=
match l with
| c :: l' =>
    match digit c with
    | Some d => take_digits (10 * acc + d) (count + 1) l'
    | None => (acc, count, l)
    end
| [] => (acc, count, [])
end.

Definition take_sign (l : list ascii) : bool * list ascii :=
match l with
| c :: l' =>
    if Ascii.eqb c "-" then (true, l')
    else if Ascii.eqb c "+" then (false, l')
    else (false, l)
| [] => (false, [])
end.

Definition exponent (l : list ascii) : option Z :=
match l with
| [] => Some 0
| c :: l' =>
    if Ascii.eqb c "e" || Ascii.eqb c "E" then
      let '(neg, l'') := take_sign l' in
      let '(v, n, rest) := take_digits 0 0 l'' in
      match rest with
      | [] => if 0 <? n then Some (if neg then - v else v) else None
      | _ => None
      end
    else None
end.

(** A decimal numeral as mantissa and power of ten. *)
Definition decimal (l : list ascii) : option (Z * Z) :=
let '(ip, ni, r1) := take_digits 0 0 l in
let '(m, nf, r2) :=
  match r1 with
  | c :: r => if Ascii.eqb c "." then take_digits ip 0 r else (ip, 0, r1)
  | [] => (ip, 0, r1)
  end in
if 0 <? ni + nf then
  match exponent r2 with
  | Some e => Some (m, e - nf)
  | None => None
  end
else None.

Definition is_space (c : ascii) : bool :=
let n := nat_of_ascii c in
(Nat.eqb n 32 || (Nat.leb 9 n && Nat.leb n 13))%bool.

Fixpoint lstrip (l : list ascii) : list ascii :=
match l with
| c :: l' => if is_space c then lstrip l' else l
| [] => []
end.

Definition strip (l : list ascii) : list ascii := rev (lstrip (rev (lstrip l))).

Definition lower (c : ascii) : ascii :=
let n := nat_of_ascii c in
if (Nat.leb 65 n && Nat.leb n 90)%bool then ascii_of_nat (n + 32) else c.

(** [float(s)]: [None] stands for [ValueError].  Underscores between
  digits, which [float] also accepts, cannot occur in the pieces of a
  name split at underscores and are not read. *)
Definition to_float (s : string) : option float :=
let '(neg, body) := take_sign (strip (list_ascii_of_string s)) in
let word := string_of_list_ascii (map lower body) in
if String.eqb word "inf" || String.eqb word "infinity"
then Some (S754_infinity neg)
else if String.eqb word "nan" then Some S754_nan
else
  match decimal body with
  | Some (m, e) => Some (Float64.of_decimal neg m e)
  | None => None
  end.

End PyStr.

(** ** Exceptions and results

    Only subclasses of [Exception] occur; [RemoteError] stands for whatever
    the Earth Engine client or [requests] raises on their own account. *)

Inductive exn :=
  | KeyError (key : string)
  | ValueError (what : string)
  | IndexError
  | TypeError
  | AttributeError
  | FileNotFoundError (path : string)
  | HTTPError (status : Z)
  | RemoteError (what : string).

Inductive result (A : Type) :=
  | Ok (a : A)
  | Raise (e : exn).
Arguments Ok {A} a.
Arguments Raise {A} e.

#[export] Instance result_ret : MRet result := fun A a => Ok a.
#[export] Instance result_bind : MBind result := fun A B f r =>
  match r with
  | Ok a => f a
  | Raise e => Raise e
  end.

Definition of_option {A} (o : option A) (e : exn) : result A :=
  match o with
  | Some a => Ok a
  | None => Raise e
  end.

(** ** Earth Engine objects

    The client builds expressions; nothing is computed until [getInfo] or
    [getDownloadUrl] sends one to the service. *)

Inductive geometry :=
  | Rectangle (xMin yMin xMax yMax : pynum).

Inductive collection :=
  | ImageCollection (id : string)
  | filterDate (c : collection) (start_date end_date : string)
  | filterBounds (c : collection) (g : geometry)
  | filterLte (c : collection) (property : string) (bound : Z).

(** The values stored in [dico], and what a variable bound to one of them
    may hold. *)
Inductive pyval :=
  | VNone
  | VNum (n : pynum)
  | VStr (s : string)
  | VList (l : list string)
  | VColl (c : collection).

#[warnings="-register-all"]
Inductive image :=
  | median (c : collection)
  | clip (i : image) (g : geometry)
  | visualize (i : image) (bands vmin vmax : pyval)
  | select (i : image) (bands : pyval)
  | rgbToHsv (i : image)
  | hsvToRgb (i : image)
  | cat (l : list image).

(** ** The dataset table [dico] (lines 23-68) *)

Definition num (m e : Z) : pyval := VNum (PyFloat (Float64.of_decimal false m e)).
Definition int (z : Z) : pyval := VNum (PyInt z).

Definition landsat : gmap string pyval :=
  <["dataset" := VColl (ImageCollection "LANDSAT/LC08/C02/T1_TOA")]>
  (<["resolution" := int 30]>
  (<["RGB" := VList ["B4"; "B3"; "B2"]]>
  (<["SI1" := VList ["B6"]]>
  (<["SI2" := VList ["B7"]]>
  (<["NIR" := VList ["B5"]]>
  (<["Cirrus" := VList ["B9"]]>
  (<["panchromatic" := VList ["B8"]]>
  (<["min" := num 0 0]>
  (<["max" := num 4 (-1)]> ∅))))))))).

Definition naip : gmap string pyval :=
  <["dataset" := VColl (ImageCollection "USDA/NAIP/DOQQ")]>
  (<["resolution" := num 6 (-1)]>
  (<["RGB" := VList ["R"; "G"; "B"]]>
  (<["IR" := VList ["N"; "R"; "G"]]>
  (<["NIR" := VList ["N"]]>
  (<["panchromatic" := VNone]>
  (<["min" := num 0 0]>
  (<["max" := num 255 0]> ∅))))))).

Definition sentinel : gmap string pyval :=
  <["dataset" := VColl (ImageCollection "COPERNICUS/S2_SR_HARMONIZED")]>
  (<["resolution" := int 10]>
  (<["RGB" := VList ["B4"; "B3"; "B2"]]>
  (<["RE" := VList ["B7"; "B6"; "B5"]]>
  (<["RE4" := VList ["B8A"]]>
  (<["NIR" := VList ["B8"]]>
  (<["SWIR1" := VList ["B11"]]>
  (<["SWIR2" := VList ["B12"]]>
  (<["IR" := VList ["B8"; "B4"; "B3"]]>
  (<["panchromatic" := VNone]>
  (<["min" := num 0 0]>
  (<["max" := num 4500 0]> ∅))))))))))).

Definition gwl_fcs30 : gmap string pyval :=
  <["dataset" := VColl (ImageCollection "projects/sat-io/open-datasets/GWL_FCS30")]>
  (<["resolution" := int 30]>
  (<["RGB" := VNone]>
  (<["min" := int 0]>
  (<["max" := int 1]> ∅)))).

Definition dico : gmap string (gmap string pyval) :=
  <["landsat" := landsat]>
  (<["naip" := naip]>
  (<["sentinel" := sentinel]>
  (<["gwl_fcs30" := gwl_fcs30]> ∅))).

(** [d[key]] on a dict: [KeyError] when the key is absent. *)
Definition getitem {V} (d : gmap string V) (key : string) : result V :=
  of_option (d !! key) (KeyError key).

(** [dico[dataset][key]]. *)
Definition dico_get (dataset key : string) : result pyval :=
  entry ← getitem dico dataset; getitem entry key.

(** [x in l] for a list of strings: an element has to compare equal to [x],
    and a string equals nothing but a string. *)
Definition py_in (x : pyval) (l : list string) : bool :=
  match x with
  | VStr s => bool_decide (s ∈ l)
  | _ => false
  end.

(** [iter(x)]: the elements a [for] loop sees. *)
Definition py_iter (x : pyval) : result (list string) :=
  match x with
  | VList l => Ok l
  | VStr s => Ok (map (fun c => String c EmptyString) (list_ascii_of_string s))
  | _ => Raise TypeError
  end.

(** ** Effective resolution (lines 87-91) *)

Definition effective_resolution (dataset band : string) : result pyval :=
  if bool_decide (dataset = "sentinel")
     && negb (bool_decide (band ∈ ["RGB"; "NIR"; "IR"]))
  then Ok (int 20)
  else dico_get dataset "resolution".

(** ** The world around the program

    What a run leaves behind: the records handed to [logging], the files
    written, and the calls made to the service, to the HTTP client and to
    [time.sleep], each in the order it happened. *)

Inductive level := INFO | WARNING | ERROR.

Inductive message :=
  | MsgDirectoryCreated (dir : string)
  | MsgDone (name : string)
  | MsgMissingBands (lat lon : float) (found : list string)
  | MsgException (e : exn)
  | MsgRetrying (e : exn) (delay : Z)
  | MsgExportComplete.

Record download_params := {
  description : string;
  region : geometry;
  fileNamePrefix : string;
  crs : string;
  fileFormat : string;
  format : string;
  dimensions : Z * Z
}.

Record response := {
  status_code : Z;
  content : list Byte.byte
}.

Inductive event :=
  | EvGetInfo (i : image)
  | EvGetDownloadUrl (i : image) (p : download_params)
  | EvGet (url : string)
  | EvSleep (seconds : Z).

Record world := {
  log : list (level * message);
  files : gmap string (list Byte.byte);
  trace : list event
}.

Definition empty_world : world := {| log := []; files := ∅; trace := [] |}.

(** The service and the network answer as they please; an answer may depend
    on everything that was asked before. *)
Record remote := {
  getInfo : list event -> image -> result (list string);
  getDownloadUrl : list event -> image -> download_params -> result string;
  requests_get : list event -> string -> result response
}.

(** Computations that change the world and may raise. *)
Definition M (A : Type) : Type := world -> result A * world.

#[export] Instance M_ret : MRet M := fun A a w => (Ok a, w).
#[export] Instance M_bind : MBind M := fun A B f m w =>
  match m w with
  | (Ok a, w') => f a w'
  | (Raise e, w') => (Raise e, w')
  end.

Definition lift {A} (r : result A) : M A := fun w => (r, w).
Definition raise {A} (e : exn) : M A := fun w => (Raise e, w).

(** [try: body / except Exception as e: handler(e)]. *)
Definition try_except (body : M unit) (handler : exn -> M unit) : M unit :=
  fun w =>
    match body w with
    | (Ok v, w') => (Ok v, w')
    | (Raise e, w') => handler e w'
    end.

Definition emit (ev : event) (w : world) : world :=
  {| log := log w; files := files w; trace := trace w ++ [ev] |}.

Definition logging (l : level) (m : message) : M unit := fun w =>
  (Ok tt, {| log := log w ++ [(l, m)]; files := files w; trace := trace w |}).

Definition logging_info (m : message) : M unit := logging INFO m.
Definition logging_exception (e : exn) : M unit := logging ERROR (MsgException e).

Definition sleep (seconds : Z) : M unit := fun w => (Ok tt, emit (EvSleep seconds) w).

(** [with open(path, 'wb') as fd: fd.write(content)]; the output directory
    exists by then (lines 229-230) and takes the file. *)
Definition write_file (path : string) (bytes : list Byte.byte) : M unit := fun w =>
  (Ok tt, {| log := log w; files := <[path := bytes]> (files w); trace := trace w |}).

(** [os.path.join(a, b)] on POSIX. *)
Definition path_join (a b : string) : string :=
  if String.prefix "/" b then b
  else if String.eqb a "" || String.prefix "/" (String.rev a) then a +:+ b
  else a +:+ "/" +:+ b.

(** [response.raise_for_status()] raises [HTTPError] on 4xx and 5xx and
    returns [None] otherwise; [raise None] is a [TypeError]. *)
Definition raise_for_status (r : response) : exn :=
  if (400 <=? status_code r) && (status_code r <? 600)
  then HTTPError (status_code r)
  else TypeError.

(** ** The [retry] decorator (package [retry], function [__retry_internal])

    [while _tries:] runs [f]; an exception decrements [_tries], is re-raised
    when none is left, and otherwise is logged as a warning, slept on for
    [_delay] seconds, and [_delay] is multiplied by [backoff].  The wrapped
    function here returns [None], as does the loop when [tries] is 0. *)

Fixpoint retry_internal (f : M unit) (tries : nat) (delay backoff : Z) : M unit :=
  match tries with
  | O => mret tt
  | S n => fun w =>
      match f w with
      | (Ok v, w') => (Ok v, w')
      | (Raise e, w') =>
          match n with
          | O => (Raise e, w')
          | S _ =>
              (logging WARNING (MsgRetrying e delay);;
               sleep delay;;
               retry_internal f n (delay * backoff) backoff) w'
          end
      end
  end.

(** [@retry(tries=10, delay=2, backoff=2)]. *)
Definition retry (f : M unit) : M unit := retry_internal f 10 2 2.

(** ** [generateURL] (lines 81-198) *)

Section Exporter.

(** [str(x)] of a float, as an f-string renders it. *)
Variable float_str : float -> string.

Variable rem : remote.

Definition call_getInfo (i : image) : M (list string) := fun w =>
(getInfo rem (trace w) i, emit (EvGetInfo i) w).

Definition call_getDownloadUrl (i : image) (p : download_params) : M string := fun w =>
(getDownloadUrl rem (trace w) i p, emit (EvGetDownloadUrl i p) w).

Definition call_get (url : string) : M response := fun w =>
(requests_get rem (trace w) url, emit (EvGet url) w).

(** [lon, lat = coord]. *)
Definition unpack (coord : list float) : result (float * float) :=
match coord with
| [lon; lat] => Ok (lon, lat)
| _ => Raise (ValueError "unpack")
end.

(** A value used as a number, as a collection. *)
Definition as_num (v : pyval) : result pynum :=
match v with
| VNum n => Ok n
| _ => Raise TypeError
end.

Definition as_collection (v : pyval) : result collection :=
match v with
| VColl c => Ok c
| _ => Raise AttributeError
end.

(** The body of each of the three [try] blocks that ask for a download
  URL, fetch it and write the file (lines 116-130, 145-159, 180-194):
  [label] is the name sent to the service, [name] the file's. *)
Definition fetch (i : image) (g : geometry) (crs' output_dir : string)
  (height width : Z) (label name : string) : M unit :=
url ← call_getDownloadUrl i
        {| description := label; region := g; fileNamePrefix := label;
           crs := crs'; fileFormat := "GEO_TIFF"; format := "GEO_TIFF";
           dimensions := (height, width) |};
response ← call_get url;
(if negb (status_code response =? 200)
 then raise (raise_for_status response) else mret tt);;
write_file (path_join output_dir (name +:+ ".tif")) (content response);;
logging_info (MsgDone name).

(** Lines 84-107: the part of the function that talks to nobody.  It names
  the file, settles the resolution, and builds the rectangle and the
  expression of the clipped median composite. *)
Record export_request := {
req_lat : float;
req_lon : float;
req_description : string;
req_geometry : geometry;
req_image : image
}.

Definition build_request (coord : list float) (height : Z)
  (dataset start_date end_date band : string) : result export_request :=
'(lon, lat) ← unpack coord;
let description' := dataset +:+ "_image_" +:+ float_str lat +:+ "_" +:+ float_str lon in
(* Determine spatial resolution *)
res ← effective_resolution dataset band ≫= as_num;
(* Create bounding box geometry *)
let '(xMin, xMax, yMin, yMax) :=
  boundingBox (PyFloat lat) (PyFloat lon) (PyInt height) res in
let geometry := Rectangle xMin yMin xMax yMax in
(* Filter by date, cloud cover, and region *)
source ← dico_get dataset "dataset" ≫= as_collection;
let filtered := filterBounds (filterDate source start_date end_date) geometry in
let filtered :=
  if bool_decide (dataset = "sentinel")
  then filterLte filtered "CLOUDY_PIXEL_PERCENTAGE" 25 else filtered in
let filtered :=
  if bool_decide (dataset = "landsat")
  then filterLte filtered "CLOUD_COVER" 25 else filtered in
(* Take the median composite *)
Ok {| req_lat := lat; req_lon := lon; req_description := description';
      req_geometry := geometry;
      req_image := clip (median filtered) geometry |}.

Definition generateURL_body (coord : list float) (height width : Z)
  (dataset crs' output_dir start_date end_date band : string)
  (sharpened : bool) : M unit :=
req ← lift (build_request coord height dataset start_date end_date band);
let description' := req_description req in
let geometry := req_geometry req in
let image := req_image req in
bands_list ← call_getInfo image;
(* Special handling for GWL_FCS30 *)
if bool_decide (dataset = "gwl_fcs30") then
  let image_vis := image in
  try_except
    (fetch image_vis geometry crs' output_dir height width description' description')
    logging_exception
(* Otherwise, handle the other datasets *)
else
  RGB ← lift (dico_get dataset band);
  _min ← lift (dico_get dataset "min");
  _max ← lift (dico_get dataset "max");
  wanted ← lift (py_iter RGB);
  (* Make a quick check if all required bands exist *)
  if forallb (fun b => bool_decide (b ∈ bands_list)) wanted then
    let image_vis := visualize image RGB _min _max in
    try_except
      (fetch image_vis geometry crs' output_dir height width description' description')
      logging_exception;;
    (* Handle pan-sharpening if requested and if panchromatic band is available *)
    panchromatic_band ← lift (dico_get dataset "panchromatic");
    if sharpened && py_in panchromatic_band bands_list then
      let hsv := rgbToHsv (select image RGB) in
      let sharpened_image :=
        hsvToRgb (cat [select hsv (VStr "hue");
                       select hsv (VStr "saturation");
                       select image panchromatic_band]) in
      try_except
        (fetch sharpened_image geometry crs' output_dir height width
               ("sharpened" +:+ description') ("sharpened_" +:+ description'))
        logging_exception
    else mret tt
  else
    logging_info (MsgMissingBands (req_lat req) (req_lon req) bands_list).

(** The function as decorated: [retry] twice, one around the other. *)
Definition generateURL (coord : list float) (height width : Z)
  (dataset crs' output_dir start_date end_date band : string)
  (sharpened : bool) : M unit :=
retry (retry (generateURL_body coord height width dataset crs' output_dir
                               start_date end_date band sharpened)).

(** ** The [__main__] block (lines 200-284) *)

Record arguments := {
filepath : string;
dataset : string;
start_date : string;
end_date : string;
height : Z;
width : Z;
output_dir : string;
band : string;
sharpened : bool;
parallel : bool;
parallel_number : Z;
redownload : bool
}.

(** [partial(generateURL, height=..., ..., sharpened=...)] (lines 235-244). *)
Definition lat_lon_only (args : arguments) (coord : list float) : M unit :=
generateURL coord (height args) (width args) (dataset args) "EPSG:3857"
            (output_dir args) (start_date args) (end_date args) (band args)
            (sharpened args).

End Exporter.

(** *** The resume filter (lines 251-260) *)

(** [a == b] on two lists of floats. *)
Fixpoint row_eqb (a b : list float) : bool :=
  match a, b with
  | [], [] => true
  | x :: a', y :: b' => Float64.eqb x y && row_eqb a' b'
  | _, _ => false
  end.

(** [data.remove(x)]: drops the first element equal to [x]; [None] stands
    for the [ValueError] raised when there is none. *)
Fixpoint list_remove (x : list float) (data : list (list float))
    : option (list (list float)) :=
  match data with
  | [] => None
  | y :: rest =>
      if row_eqb y x then Some rest
      else cons y <$> list_remove x rest
  end.

(** Lines 255-258: the pair [[lon, lat]] a file name stands for. *)
Definition file_coordinate (file : string) : result (list float) :=
  let split_file_name := PyStr.split "_" (PyStr.replace ".tif" "" file) in
  field ← of_option (split_file_name !! 2%nat) IndexError;
  lat ← of_option (PyStr.to_float field) (ValueError "float");
  field ← of_option (split_file_name !! 3%nat) IndexError;
  lon ← of_option (PyStr.to_float field) (ValueError "float");
  Ok [lon; lat].

(** One turn of the loop over the directory listing. *)
Definition resume_step (file : string) (data : list (list float))
    : result (list (list float)) :=
  lon_lat_list ← file_coordinate file;
  of_option (list_remove lon_lat_list data)
            (ValueError "list.remove(x): x not in list").

Fixpoint resume_filter (filelist : list string) (data : list (list float))
    : result (list (list float)) :=
  match filelist with
  | [] => Ok data
  | file :: rest => data' ← resume_step file data; resume_filter rest data'
  end.

(** *** The dispatch loop (lines 262-275) *)

(** Serial mode: one task after the other, a second's rest after each. *)
Fixpoint dispatch_serial (task : list float -> M unit) (data : list (list float))
    : M unit :=
  match data with
  | [] => mret tt
  | coord :: rest => task coord;; sleep 1;; dispatch_serial task rest
  end.

(** Parallel mode.  Every coordinate is submitted before any result is
    asked for, and leaving the [with] block waits for all of them, so each
    task runs whatever becomes of the others; its outcome is kept in its
    future.  The workers' steps interleave in the real pool: they are laid
    out here in the order of submission. *)
Fixpoint run_submitted (task : list float -> M unit) (data : list (list float))
    (w : world) : list (result unit) * world :=
  match data with
  | [] => ([], w)
  | coord :: rest =>
      let '(r, w') := task coord w in
      let '(rs, w'') := run_submitted task rest w' in
      (r :: rs, w'')
  end.

(** [for future in futures: future.result()]: the first exception kept in a
    future is raised again. *)
Fixpoint results (futures : list (result unit)) : result unit :=
  match futures with
  | [] => Ok tt
  | Ok _ :: rest => results rest
  | Raise e :: _ => Raise e
  end.

Definition dispatch_parallel (task : list float -> M unit) (data : list (list float))
    : M unit :=
  fun w => let '(futures, w') := run_submitted task data w in (results futures, w').

(** *** The whole run

    [listing] is the content of the output directory, [None] when the
    directory does not exist yet; [input] is what opening and reading the
    coordinate file gives (lines 246-249), an exception when it is missing
    or malformed.  The closing summary line is kept as its record only. *)
Definition main (float_str : float -> string) (rem : remote) (args : arguments)
    (listing : option (list string)) (input : result (list (list float)))
    : M unit :=
  (match listing with
   | None => logging_info (MsgDirectoryCreated (output_dir args))
   | Some _ => mret tt
   end);;
  data ← lift input;
  data ← (if negb (redownload args)
          then lift (resume_filter (default [] listing) data)
          else mret data);
  (if parallel args
   then dispatch_parallel (lat_lon_only float_str rem args) data
   else dispatch_serial (lat_lon_only float_str rem args) data);;
  logging_info MsgExportComplete.

(** ** Reading a trace *)

Definition is_getInfo (ev : event) : bool :=
  match ev with EvGetInfo _ => true | _ => false end.

Definition is_get (ev : event) : bool :=
  match ev with EvGet _ => true | _ => false end.

Definition is_getDownloadUrl (ev : event) : bool :=
  match ev with EvGetDownloadUrl _ _ => true | _ => false end.

(** How many times the band names were asked for: once per execution of
    the body of [generateURL] that got as far as line 109. *)
Definition queries (t : list event) : nat := length (filter is_getInfo t).

(** The seconds slept, in order. *)
Fixpoint sleeps (t : list event) : list Z :=
  match t with
  | [] => []
  | EvSleep s :: t' => s :: sleeps t'
  | _ :: t' => sleeps t'
  end.

Definition is_sleep (ev : event) : bool :=
  match ev with EvSleep _ => true | _ => false end.

(** How many calls went out to the service and to the HTTP client. *)
Definition calls (t : list event) : nat :=
  length (filter (fun ev => negb (is_sleep ev)) t).

(** The seconds slept by a retry loop none of whose attempts succeeds: each
    attempt sleeps [s] on its own account, and the loop sleeps [delay],
    [delay * backoff], ... between the first attempt and the [n] that
    follow. *)
Fixpoint retry_sleeps (s : list Z) (n : nat) (delay backoff : Z) : list Z :=
  match n with
  | O => s
  | S n' => (s ++ delay :: retry_sleeps s n' (delay * backoff) backoff)%list
  end.

(** The delays of one [retry(tries=10, delay=2, backoff=2)] that never
    succeeds, and those of two of them, one around the other. *)
Definition backoff_schedule : list Z := [2; 4; 8; 16; 32; 64; 128; 256; 512].

Definition nested_schedule : list Z :=
  (backoff_schedule ++ flat_map (fun d => d :: backoff_schedule) backoff_schedule)%list.

(** ** Sample runs

    Concrete coordinates, services and command lines on which the
    statements below are exercised. *)

Module Sample.

Definition flt (s : string) : float := default S754_nan (PyStr.to_float s).

Definition lat_a : float := flt "35.5".
Definition lon_a : float := flt "-78.9".
Definition lat_b : float := flt "35.50001".

Definition coord_a : list float := [lon_a; lat_a].
Definition coord_b : list float := [lon_a; lat_b].

(** A rendering of floats good for the coordinates above. *)
Definition show (f : float) : string :=
if Float64.eqb f lat_a then "35.5"
else if Float64.eqb f lon_a then "-78.9"
else if Float64.eqb f lat_b then "35.50001"
else "nan".

Definition tiff : response :=
{| status_code := 200; content := [Byte.x49; Byte.x49; Byte.x2a; Byte.x00] |}.

Definition unavailable : response := {| status_code := 503; content := [] |}.

Definition landsat_bands : list string :=
["B1"; "B2"; "B3"; "B4"; "B5"; "B6"; "B7"; "B8"; "B9"; "B10"; "B11"].

(** A service in good health that knows the bands [bands]. *)
Definition healthy (bands : list string) : remote :=
{| getInfo := fun _ _ => Ok bands;
   getDownloadUrl := fun _ _ p => Ok ("https://earthengine/" +:+ description p);
   requests_get := fun _ _ => Ok tiff |}.

(** The same, except that the first HTTP request of the run is answered
  503 Service Unavailable. *)
Definition one_bad_download (bands : list string) : remote :=
{| getInfo := fun _ _ => Ok bands;
   getDownloadUrl := fun _ _ p => Ok ("https://earthengine/" +:+ description p);
   requests_get := fun history _ =>
     if existsb is_get history then Ok tiff else Ok unavailable |}.



Definition args (dataset' band' : string) (sharpened' parallel' : bool) : arguments :=
{| filepath := "coords.csv"; dataset := dataset';
   start_date := "2022-03-21"; end_date := "2022-06-20";
   height := 512; width := 512; output_dir := "output_images/";
   band := band'; sharpened := sharpened'; parallel := parallel';
   parallel_number := 80; redownload := false |}.

End Sample.

(** ** Further readings of the program's effects *)

(** One retry loop over an explicit list of delays: [f] is run, and each
    exception is logged and slept on for the next delay of the list; with
    the list used up, the exception goes to the caller. *)
Fixpoint run_schedule (f : M unit) (delays : list Z) (w : world) {struct delays}
    : result unit * world :=
  match f w with
  | (Ok v, w') => (Ok v, w')
  | (Raise e, w') =>
      match delays with
      | [] => (Raise e, w')
      | d :: rest =>
          (logging WARNING (MsgRetrying e d);; sleep d;; run_schedule f rest) w'
      end
  end.

(** How often a character occurs in a string. *)
Fixpoint count_char (c : ascii) (s : string) : nat :=
  match s with
  | EmptyString => O
  | String a s' => ((if Ascii.eqb a c then 1 else 0) + count_char c s')%nat
  end.

(** The name under which [generateURL] writes the image of a coordinate
    (lines 85 and 157): [f'{dataset}_image_{lat}_{lon}.tif']. *)
Definition output_name (float_str : float -> string) (dataset : string)
    (lon lat : float) : string :=
  (dataset +:+ "_image_" +:+ float_str lat +:+ "_" +:+ float_str lon) +:+ ".tif".

(** The cloud-cover filter of lines 99-104, as a function of the dataset. *)
Definition cloud_filter (dataset : string) (c : collection) : collection :=
  let c := if bool_decide (dataset = "sentinel")
           then filterLte c "CLOUDY_PIXEL_PERCENTAGE" 25 else c in
  if bool_decide (dataset = "landsat") then filterLte c "CLOUD_COVER" 25 else c.

(** [float_str] renders [x] readably: the text has no underscore and no
    letter t, and [float] reads [x] back from it.  Python's [repr] does so
    for every float but NaN. *)
Definition renders (float_str : float -> string) (x : float) : Prop :=
  count_char "_" (float_str x) = O /\
  count_char "t" (float_str x) = O /\
  PyStr.to_float (float_str x) = Some x.

(** ** More sample services *)

Module Scenario.




End Scenario.

(** * Properties *)

Local Open Scope list_scope.

(** ** The bounding box *)

Section BoundingBoxOverReals.
Local Open Scope R_scope.




End BoundingBoxOverReals.



(** ** The effective resolution *)

(** C6.  For "sentinel" and a band group outside RGB, NIR and IR the
    resolution is 20, where the table says 10; for any other dataset, and
    for "sentinel" with one of these three groups, it is the table's
    ['resolution'] entry. *)
Theorem C6_effective_resolution (dataset band : string) :
  (dataset = "sentinel" -> band ∉ ["RGB"; "NIR"; "IR"] ->
     effective_resolution dataset band = Ok (int 20) /\
     dico_get dataset "resolution" = Ok (int 10)) /\
  (dataset ≠ "sentinel" \/ band ∈ ["RGB"; "NIR"; "IR"] ->
     effective_resolution dataset band = dico_get dataset "resolution").
Proof.
  unfold effective_resolution. split.
  - intros -> Hband.
    rewrite bool_decide_eq_true_2 by reflexivity.
    rewrite (bool_decide_eq_false_2 _ Hband). split; reflexivity.
  - intros [Hds | Hband].
    + rewrite (bool_decide_eq_false_2 _ Hds). reflexivity.
    + rewrite (bool_decide_eq_true_2 _ Hband), andb_false_r. reflexivity.
Qed.

(** C6, witness: "sentinel" with SWIR1, and "naip" with SWIR1. *)
Lemma C6_effective_resolution_witness :
  (effective_resolution "sentinel" "SWIR1" = Ok (int 20) /\
   dico_get "sentinel" "resolution" = Ok (int 10)) /\
  effective_resolution "naip" "SWIR1" = dico_get "naip" "resolution".
Proof.
  split.
  - apply (proj1 (C6_effective_resolution "sentinel" "SWIR1")).
    + reflexivity.
    + apply (bool_decide_eq_false_1 _). vm_compute. reflexivity.
  - apply (proj2 (C6_effective_resolution "naip" "SWIR1")).
    left. apply (bool_decide_eq_false_1 _). vm_compute. reflexivity.
Defined.

(** ** The resume filter *)

Lemma list_remove_first (x : list float) (pre : list (list float)) row post :
  row_eqb row x = true ->
  Forall (fun r => row_eqb r x = false) pre ->
  list_remove x (pre ++ row :: post) = Some (pre ++ post).
Proof.
  intros Hrow Hpre. induction Hpre as [| r pre Hr _ IH]; simpl.
  - rewrite Hrow. reflexivity.
  - rewrite Hr, IH. reflexivity.
Qed.

Lemma list_remove_absent (x : list float) (data : list (list float)) :
  Forall (fun r => row_eqb r x = false) data -> list_remove x data = None.
Proof.
  induction 1 as [| r data Hr _ IH]; simpl; [reflexivity |].
  rewrite Hr, IH. reflexivity.
Qed.

(** C3, amended.  A file of the listing whose name parses to the pair
    [[lon, lat]] takes out of the work list the first coordinate equal to
    that pair under float [==], and leaves every other coordinate, before
    and after it, in place; the filter then goes on with the rest of the
    listing. *)
Theorem C3_resume_filter_removes_first_match
    (file : string) (rest : list string) (x : list float)
    (pre : list (list float)) (row : list float) (post : list (list float)) :
  file_coordinate file = Ok x ->
  row_eqb row x = true ->
  Forall (fun r => row_eqb r x = false) pre ->
  resume_filter (file :: rest) (pre ++ row :: post) = resume_filter rest (pre ++ post).
Proof.
  intros Hfile Hrow Hpre. simpl. unfold resume_step.
  rewrite Hfile. simpl.
  rewrite (list_remove_first x pre row post Hrow Hpre). reflexivity.
Qed.

(** C3, witness: [sentinel_image_35.5_-78.9.tif] against the work list
    [(-78.9, 35.50001); (-78.9, 35.5)]. *)
Lemma C3_resume_filter_removes_first_match_witness :
  file_coordinate "sentinel_image_35.5_-78.9.tif" = Ok Sample.coord_a /\
  row_eqb Sample.coord_a Sample.coord_a = true /\
  Forall (fun r => row_eqb r Sample.coord_a = false) [Sample.coord_b] /\
  resume_filter ["sentinel_image_35.5_-78.9.tif"] [Sample.coord_b; Sample.coord_a]
    = Ok [Sample.coord_b].
Proof.
  assert (H1 : file_coordinate "sentinel_image_35.5_-78.9.tif" = Ok Sample.coord_a)
    by (vm_compute; reflexivity).
  assert (H2 : row_eqb Sample.coord_a Sample.coord_a = true)
    by (vm_compute; reflexivity).
  assert (H3 : Forall (fun r => row_eqb r Sample.coord_a = false) [Sample.coord_b])
    by (repeat constructor).
  split; [exact H1 | split; [exact H2 | split; [exact H3 |]]].
  exact (C3_resume_filter_removes_first_match
           "sentinel_image_35.5_-78.9.tif" [] Sample.coord_a
           [Sample.coord_b] Sample.coord_a [] H1 H2 H3).
Defined.

(** C3, counterexample.  A file whose pair equals no coordinate of the work
    list does not leave the list as it was: [data.remove] raises
    [ValueError], and the run ends there, before anything is dispatched. *)
Lemma C3_unmatched_file_raises :
  let listing := ["sentinel_image_35.5_-78.8.tif"] in
  resume_filter listing [Sample.coord_a]
    = Raise (ValueError "list.remove(x): x not in list") /\
  main Sample.show (Sample.healthy ["B2"; "B3"; "B4"])
       (Sample.args "sentinel" "RGB" false false)
       (Some listing) (Ok [Sample.coord_a]) empty_world
    = (Raise (ValueError "list.remove(x): x not in list"), empty_world).
Proof. vm_compute. split; reflexivity. Qed.

(** ** The dataset table *)

Lemma dico_datasets (d : string) (entry : gmap string pyval) :
  dico !! d = Some entry ->
  (d = "landsat" /\ entry = landsat) \/ (d = "naip" /\ entry = naip) \/
  (d = "sentinel" /\ entry = sentinel) \/ (d = "gwl_fcs30" /\ entry = gwl_fcs30).
Proof.
  unfold dico. intros H.
  apply lookup_insert_Some in H as [[<- <-] | [_ H]]; [tauto |].
  apply lookup_insert_Some in H as [[<- <-] | [_ H]]; [tauto |].
  apply lookup_insert_Some in H as [[<- <-] | [_ H]]; [tauto |].
  apply lookup_insert_Some in H as [[<- <-] | [_ H]]; [tauto |].
  rewrite lookup_empty in H. discriminate.
Qed.

Lemma dico_get_entry (d key : string) (entry : gmap string pyval) :
  dico !! d = Some entry ->
  dico_get d key = of_option (entry !! key) (KeyError key).
Proof. intros H. unfold dico_get, getitem. rewrite H. reflexivity. Qed.

Lemma dico_get_unknown (d key : string) :
  dico !! d = None -> dico_get d key = Raise (KeyError d).
Proof. intros H. unfold dico_get, getitem. rewrite H. reflexivity. Qed.

(** Every entry has a numeric resolution, a collection, and the two
    visualisation bounds. *)
Lemma dico_entry_shape (d : string) (entry : gmap string pyval) :
  dico !! d = Some entry ->
  exists n c lo hi,
    entry !! "resolution" = Some (VNum n) /\ entry !! "dataset" = Some (VColl c) /\
    entry !! "min" = Some lo /\ entry !! "max" = Some hi.
Proof.
  intros H. destruct (dico_datasets d entry H) as [[_ ->] | [[_ ->] | [[_ ->] | [_ ->]]]];
    do 4 eexists; repeat split; reflexivity.
Qed.

(** What the table holds under ['panchromatic'] is a list or [None], and
    neither is an element of a list of band names. *)
Lemma panchromatic_never_in_bands (d : string) (entry : gmap string pyval)
    (v : pyval) (bands_list : list string) :
  dico !! d = Some entry -> entry !! "panchromatic" = Some v ->
  py_in v bands_list = false.
Proof.
  intros H Hv.
  destruct (dico_datasets d entry H) as [[_ ->] | [[_ ->] | [[_ ->] | [_ ->]]]];
    vm_compute in Hv; inversion Hv; reflexivity.
Qed.

Lemma dico_entry_panchromatic (d : string) (entry : gmap string pyval) :
  dico !! d = Some entry -> d ≠ "gwl_fcs30" ->
  exists v, entry !! "panchromatic" = Some v.
Proof.
  intros H Hd.
  destruct (dico_datasets d entry H) as [[? ->] | [[? ->] | [[? ->] | [? ->]]]];
    [eexists; reflexivity .. | contradiction].
Qed.

(** ** The dispatch loop *)






(** ** Building the request *)

Section Properties.

Variable float_str : float -> string.
Variable rem : remote.

Lemma build_request_unknown (lon lat : float) (height : Z)
(dataset start_date end_date band : string) :
dico !! dataset = None ->
build_request float_str [lon; lat] height dataset start_date end_date band
= Raise (KeyError dataset).
Proof.
intros H. unfold build_request, effective_resolution.
assert (Hds : dataset ≠ "sentinel") by (intros ->; vm_compute in H; discriminate).
rewrite (bool_decide_eq_false_2 _ Hds).
rewrite !(dico_get_unknown dataset) by exact H. reflexivity.
Qed.


(** ** The monad and [retry] *)




Lemma retry_internal_unfold (f : M unit) (n : nat) (delay backoff : Z) (w : world) :
retry_internal f (S n) delay backoff w =
match f w with
| (Ok v, w') => (Ok v, w')
| (Raise e, w') =>
  match n with
  | O => (Raise e, w')
  | S _ =>
      retry_internal f n (delay * backoff) backoff
        (emit (EvSleep delay)
           {| log := log w' ++ [(WARNING, MsgRetrying e delay)];
              files := files w'; trace := trace w' |})
  end
end.
Proof. simpl. destruct (f w) as [[v | e] w']; destruct n; reflexivity. Qed.


Lemma calls_app (t1 t2 : list event) : calls (t1 ++ t2) = (calls t1 + calls t2)%nat.
Proof. unfold calls. rewrite filter_app, length_app. reflexivity. Qed.

Lemma sleeps_app (t1 t2 : list event) : sleeps (t1 ++ t2) = sleeps t1 ++ sleeps t2.
Proof.
induction t1 as [| ev t1 IH]; [reflexivity |].
destruct ev; simpl; rewrite IH; reflexivity.
Qed.


(** What a retry loop adds to a count of events that sleeping leaves alone. *)
Section RetryCounts.

Variable measure : list event -> nat.
Hypothesis measure_app : forall t1 t2, measure (t1 ++ t2) = (measure t1 + measure t2)%nat.
Hypothesis measure_sleep : forall d, measure [EvSleep d] = 0%nat.

Lemma measure_after_sleep (w : world) (d : Z) (l : list (level * message)) :
measure (trace (emit (EvSleep d) {| log := l; files := files w; trace := trace w |}))
= measure (trace w).
Proof. cbn [emit trace]. rewrite measure_app, measure_sleep. lia. Qed.


Lemma retry_internal_failing (f : M unit) (e : exn) (k : nat) (s : list Z) (backoff : Z) :
(forall w, fst (f w) = Raise e /\
         measure (trace (snd (f w))) = (measure (trace w) + k)%nat /\
         sleeps (trace (snd (f w))) = sleeps (trace w) ++ s) ->
forall n delay w,
fst (retry_internal f (S n) delay backoff w) = Raise e /\
measure (trace (snd (retry_internal f (S n) delay backoff w)))
  = (measure (trace w) + S n * k)%nat /\
sleeps (trace (snd (retry_internal f (S n) delay backoff w)))
  = sleeps (trace w) ++ retry_sleeps s n delay backoff.
Proof.
intros Hf. induction n as [| n IH]; intros delay w.
- rewrite retry_internal_unfold. destruct (Hf w) as (He & Hk & Hs).
destruct (f w) as [[v | e'] w']; cbn [fst snd] in *; [discriminate |].
repeat split; [exact He | lia | exact Hs].
- rewrite retry_internal_unfold. destruct (Hf w) as (He & Hk & Hs).
destruct (f w) as [[v | e'] w']; cbn [fst snd] in *; [discriminate |].
match goal with
| |- context [retry_internal f (S n) ?d backoff ?w0] =>
    destruct (IH d w0) as (He' & Hk' & Hs')
end.
rewrite He', Hk', Hs', measure_after_sleep, Hk.
cbn [emit trace]. rewrite sleeps_app, Hs. cbn [sleeps retry_sleeps].
repeat split; [lia |]. rewrite <- !app_assoc. reflexivity.
Qed.

End RetryCounts.

(** A download that goes wrong, at whichever step, is logged and leaves the
[try] block as a normal return; what the block sends out is one request
for a URL of the image it was given and at most one HTTP request. *)
Lemma try_fetch_returns (i : image) (g : geometry) (crs' output_dir : string)
(height width : Z) (label name : string) (w : world) :
exists w' p t,
try_except (fetch rem i g crs' output_dir height width label name)
           logging_exception w = (Ok tt, w') /\
trace w' = trace w ++ EvGetDownloadUrl i p :: t /\
Forall (fun ev => is_get ev = true) t.
Proof.
unfold try_except, fetch, mbind, M_bind, call_getDownloadUrl, call_get,
logging_exception, logging_info, logging, write_file, raise, mret, M_ret.
destruct (getDownloadUrl rem (trace w) i _) as [url | e];
[| do 3 eexists; repeat split; constructor].
destruct (requests_get rem _ url) as [r | e];
[| do 3 eexists; split; [reflexivity |];
   cbn [trace emit]; rewrite <- app_assoc; split; [reflexivity | repeat constructor]].
destruct (negb (status_code r =? 200));
do 3 eexists; (split; [reflexivity |]);
cbn [trace emit]; rewrite <- app_assoc; (split; [reflexivity | repeat constructor]).
Qed.

(** ** Band groups and the "gwl_fcs30" bypass *)




(** ** The stacked retries *)



Lemma nested_schedule_retry_sleeps :
retry_sleeps (retry_sleeps [] 9 2 2) 9 2 2 = nested_schedule.
Proof. reflexivity. Qed.

(** Two retries around a function that fails the same way every time. *)
Lemma stacked_retry_failing (measure : list event -> nat) (f : M unit) (e : exn) (k : nat) :
(forall t1 t2, measure (t1 ++ t2) = (measure t1 + measure t2)%nat) ->
(forall d, measure [EvSleep d] = 0%nat) ->
(forall w, fst (f w) = Raise e /\
         measure (trace (snd (f w))) = (measure (trace w) + k)%nat /\
         sleeps (trace (snd (f w))) = sleeps (trace w)) ->
forall w,
fst (retry (retry f) w) = Raise e /\
measure (trace (snd (retry (retry f) w))) = (measure (trace w) + 100 * k)%nat /\
sleeps (trace (snd (retry (retry f) w))) = sleeps (trace w) ++ nested_schedule.
Proof.
intros Happ Hsleep Hf w.
change (retry (retry f) w) with (retry_internal (retry f) 10 2 2 w).
destruct (retry_internal_failing measure Happ Hsleep (retry f) e (10 * k)
          (retry_sleeps [] 9 2 2) 2) with (n := 9%nat) (delay := 2) (w := w)
as (He & Hk & Hs).
- intros w0. unfold retry.
destruct (retry_internal_failing measure Happ Hsleep f e k [] 2)
  with (n := 9%nat) (delay := 2) (w := w0) as (He & Hk & Hs).
+ intros w1. destruct (Hf w1) as (? & ? & Hs). rewrite app_nil_r. auto.
+ auto.
- rewrite He, Hk, Hs, nested_schedule_retry_sleeps. repeat split. lia.
Qed.


(** ** An unknown dataset *)


End Properties.

(** ** The statements above on the sample runs *)

(** C1, the code at a failing input.  The service knows every band of
    "naip" RGB and answers the first HTTP request of the run with 503.  The
    [try] block of line 144 catches the [HTTPError]: the function returns
    normally after one execution and one request, having slept not once and
    written nothing, and the error is logged.  Nothing was retried, though
    the same task run once more in the world it left gets its file. *)
Theorem C1_failed_download_is_not_retried :
  let rem := Sample.one_bad_download ["R"; "G"; "B"; "N"] in
  let task := lat_lon_only Sample.show rem (Sample.args "naip" "RGB" false false) in
  let out := task Sample.coord_a empty_world in
  fst out = Ok tt /\
  log (snd out) = [(ERROR, MsgException (HTTPError 503))] /\
  files (snd out) = ∅ /\
  filter is_get (trace (snd out)) = [EvGet "https://earthengine/naip_image_35.5_-78.9"] /\
  queries (trace (snd out)) = 1%nat /\
  sleeps (trace (snd out)) = [] /\
  files (snd (task Sample.coord_a (snd out))) !! "output_images/naip_image_35.5_-78.9.tif"
    = Some (content Sample.tiff).
Proof. vm_compute. repeat split. Qed.

(** C4, the code at a failing input.  Pan-sharpening is asked for on
    "landsat", whose entry names the panchromatic band B8, and B8 is among
    the bands of the composite.  The test of line 165 asks whether the list
    [['B8']] is an element of the list of band names, which it is not: the
    primary file is written and that is all, no second URL is asked for and
    no [sharpened_] file appears. *)
Theorem C4_pansharpening_not_attempted_on_landsat :
  let rem := Sample.healthy Sample.landsat_bands in
  let task := lat_lon_only Sample.show rem (Sample.args "landsat" "RGB" true false) in
  let out := task Sample.coord_a empty_world in
  dico_get "landsat" "panchromatic" = Ok (VList ["B8"]) /\
  bool_decide ("B8" ∈ Sample.landsat_bands) = true /\
  py_in (VList ["B8"]) Sample.landsat_bands = false /\
  fst out = Ok tt /\
  log (snd out) = [(INFO, MsgDone "landsat_image_35.5_-78.9")] /\
  length (filter is_getDownloadUrl (trace (snd out))) = 1%nat /\
  files (snd out) !! "output_images/landsat_image_35.5_-78.9.tif"
    = Some (content Sample.tiff) /\
  files (snd out) !! "output_images/sharpened_landsat_image_35.5_-78.9.tif" = None.
Proof. vm_compute. repeat split. Qed.








(** * Further properties *)

(** ** The two decorators as one loop *)

Lemma run_schedule_app (f : M unit) (s : list Z) (d : Z) (rest : list Z) (w : world) :
  run_schedule f (s ++ d :: rest) w =
  match run_schedule f s w with
  | (Ok v, w') => (Ok v, w')
  | (Raise e, w') =>
      (logging WARNING (MsgRetrying e d);; sleep d;; run_schedule f rest) w'
  end.
Proof.
  revert w. induction s as [| d' s IH]; intros w; cbn [app run_schedule].
  - destruct (f w) as [[v | e] w']; reflexivity.
  - destruct (f w) as [[v | e] w']; [reflexivity |].
    unfold mbind, M_bind, logging, sleep. apply IH.
Qed.

Lemma retry_internal_over_schedule (f : M unit) (s : list Z) (backoff : Z) :
  forall n delay w,
    retry_internal (run_schedule f s) (S n) delay backoff w
    = run_schedule f (retry_sleeps s n delay backoff) w.
Proof.
  induction n as [| n IH]; intros delay w.
  - rewrite retry_internal_unfold. cbn [retry_sleeps].
    destruct (run_schedule f s w) as [[v | e] w']; reflexivity.
  - rewrite retry_internal_unfold. cbn [retry_sleeps]. rewrite run_schedule_app.
    destruct (run_schedule f s w) as [[v | e] w']; [reflexivity |].
    rewrite IH. reflexivity.
Qed.

Lemma run_schedule_nil (f : M unit) (w : world) : run_schedule f [] w = f w.
Proof. cbn [run_schedule]. destruct (f w) as [[v | e] w']; reflexivity. Qed.

Lemma retry_internal_ext (f g : M unit) (backoff : Z) :
  (forall w, f w = g w) ->
  forall n delay w, retry_internal f n delay backoff w = retry_internal g n delay backoff w.
Proof.
  intros Hfg. induction n as [| n IH]; intros delay w; [reflexivity |].
  rewrite !retry_internal_unfold, Hfg.
  destruct (g w) as [[v | e] w']; [reflexivity |].
  destruct n; [reflexivity | apply IH].
Qed.

Lemma stacked_retry_is_one_loop (f : M unit) (w : world) :
  retry (retry f) w = run_schedule f nested_schedule w.
Proof.
  unfold retry.
  rewrite (retry_internal_ext (retry_internal f 10 2 2)
             (run_schedule f (retry_sleeps [] 9 2 2)) 2).
  - rewrite retry_internal_over_schedule. reflexivity.
  - intros w0.
    rewrite (retry_internal_ext f (run_schedule f []) 2
               (fun w1 => eq_sym (run_schedule_nil f w1))).
    apply retry_internal_over_schedule.
Qed.

(** ** One execution of the body *)

Section Further.

Variable float_str : float -> string.
Variable rem : remote.

Lemma build_request_exact (lon lat : float) (height : Z)
  (dataset start_date end_date band : string) (entry : gmap string pyval) :
dico !! dataset = Some entry ->
exists c0 g,
  entry !! "dataset" = Some (VColl c0) /\
  build_request float_str [lon; lat] height dataset start_date end_date band
  = Ok {| req_lat := lat; req_lon := lon;
          req_description :=
            dataset +:+ "_image_" +:+ float_str lat +:+ "_" +:+ float_str lon;
          req_geometry := g;
          req_image :=
            clip (median (cloud_filter dataset
                            (filterBounds (filterDate c0 start_date end_date) g))) g |}.
Proof.
intros H.
destruct (dico_entry_shape dataset entry H) as (n & c & lo & hi & Hres & Hcoll & _ & _).
exists c. unfold build_request, effective_resolution.
rewrite !(dico_get_entry dataset _ entry) by exact H. rewrite Hres, Hcoll.
destruct (bool_decide (dataset = "sentinel") && _);
  cbn [unpack mbind result_bind of_option as_num as_collection int];
  match goal with
  | |- context [boundingBox ?a ?b ?c ?d] =>
      destruct (boundingBox a b c d) as [[[xMin xMax] yMin] yMax]
  end; eexists; (split; [reflexivity |]); reflexivity.
Qed.

Lemma build_request_inv (coord : list float) (height : Z)
  (dataset start_date end_date band : string) (req : export_request) :
build_request float_str coord height dataset start_date end_date band = Ok req ->
exists entry,
  dico !! dataset = Some entry /\
  coord = [req_lon req; req_lat req] /\
  req_description req
  = dataset +:+ "_image_" +:+ float_str (req_lat req) +:+ "_" +:+ float_str (req_lon req).
Proof.
intros H.
destruct coord as [| lon [| lat [| ? ?]]]; try discriminate H.
destruct (dico !! dataset) as [entry |] eqn:Hentry.
- exists entry. split; [reflexivity |].
  destruct (build_request_exact lon lat height dataset start_date end_date band
              entry Hentry) as (c0 & g & _ & Hreq).
  rewrite Hreq in H. injection H as <-. split; reflexivity.
- rewrite (build_request_unknown float_str lon lat height dataset start_date end_date
             band Hentry) in H. discriminate.
Qed.

(** The download block, step by step. *)
Lemma try_fetch_outcome (i : image) (g : geometry) (crs' output_dir : string)
  (height width : Z) (label name : string) (w : world) :
try_except (fetch rem i g crs' output_dir height width label name)
           logging_exception w =
let p := {| description := label; region := g; fileNamePrefix := label;
            crs := crs'; fileFormat := "GEO_TIFF"; format := "GEO_TIFF";
            dimensions := (height, width) |} in
let t1 := trace w ++ [EvGetDownloadUrl i p] in
match getDownloadUrl rem (trace w) i p with
| Raise e =>
    (Ok tt, {| log := log w ++ [(ERROR, MsgException e)];
               files := files w; trace := t1 |})
| Ok url =>
    match requests_get rem t1 url with
    | Raise e =>
        (Ok tt, {| log := log w ++ [(ERROR, MsgException e)];
                   files := files w; trace := t1 ++ [EvGet url] |})
    | Ok r =>
        if status_code r =? 200
        then (Ok tt, {| log := log w ++ [(INFO, MsgDone name)];
                        files := <[path_join output_dir (name +:+ ".tif") := content r]>
                                   (files w);
                        trace := t1 ++ [EvGet url] |})
        else (Ok tt, {| log := log w ++ [(ERROR, MsgException (raise_for_status r))];
                        files := files w; trace := t1 ++ [EvGet url] |})
    end
end.
Proof.
cbv zeta.
unfold try_except, fetch, mbind, M_bind, call_getDownloadUrl, call_get,
  logging_exception, logging_info, logging, write_file, raise, mret, M_ret.
destruct (getDownloadUrl rem (trace w) i _) as [url | e]; [| reflexivity].
cbn [emit trace log files].
destruct (requests_get rem _ url) as [r | e]; [| reflexivity].
destruct (status_code r =? 200); reflexivity.
Qed.

(** The body on a dataset of the table, with the table lookups done and the
  pan-sharpening test, which never passes, taken out. *)
Lemma generateURL_body_known (lon lat : float) (height width : Z)
  (dataset crs' output_dir start_date end_date band : string) (sharpened : bool)
  (entry : gmap string pyval) (req : export_request) (lo hi : pyval) (w : world) :
dico !! dataset = Some entry ->
build_request float_str [lon; lat] height dataset start_date end_date band = Ok req ->
entry !! "min" = Some lo -> entry !! "max" = Some hi ->
generateURL_body float_str rem [lon; lat] height width dataset crs' output_dir
                 start_date end_date band sharpened w =
let w1 := emit (EvGetInfo (req_image req)) w in
let download i :=
  try_except (fetch rem i (req_geometry req) crs' output_dir height width
                    (req_description req) (req_description req))
             logging_exception w1 in
match getInfo rem (trace w) (req_image req) with
| Raise e => (Raise e, w1)
| Ok bands_list =>
    if bool_decide (dataset = "gwl_fcs30") then download (req_image req)
    else
      match entry !! band with
      | None => (Raise (KeyError band), w1)
      | Some RGB =>
          match py_iter RGB with
          | Raise e => (Raise e, w1)
          | Ok wanted =>
              if forallb (fun b => bool_decide (b ∈ bands_list)) wanted
              then download (visualize (req_image req) RGB lo hi)
              else logging_info (MsgMissingBands (req_lat req) (req_lon req) bands_list) w1
          end
      end
end.
Proof.
intros Hentry Hreq Hlo Hhi. cbv zeta.
unfold generateURL_body. rewrite Hreq.
unfold mbind, M_bind, lift, call_getInfo.
destruct (getInfo rem (trace w) (req_image req)) as [bands_list | e]; [| reflexivity].
destruct (bool_decide (dataset = "gwl_fcs30")) eqn:Hgwl; [reflexivity |].
apply bool_decide_eq_false_1 in Hgwl.
rewrite !(dico_get_entry dataset _ entry) by exact Hentry. rewrite Hlo, Hhi.
destruct (entry !! band) as [RGB |]; [| reflexivity]. cbn [of_option].
destruct (py_iter RGB) as [wanted | e]; [| reflexivity].
destruct (forallb _ wanted); [| reflexivity].
destruct (try_fetch_returns rem (visualize (req_image req) RGB lo hi) (req_geometry req)
            crs' output_dir height width (req_description req) (req_description req)
            (emit (EvGetInfo (req_image req)) w)) as (w' & p & t & Hrun & _ & _).
rewrite Hrun.
destruct (dico_entry_panchromatic dataset entry Hentry Hgwl) as [pan Hpan].
rewrite Hpan. cbn [of_option].
rewrite (panchromatic_never_in_bands dataset entry pan bands_list Hentry Hpan).
rewrite andb_false_r. reflexivity.
Qed.



(** ** The stacked retries, again *)

(** X1.  The two [retry] decorators together are one loop: the body is run,
  and after each exception the loop logs a warning and sleeps for the next
  of the 99 delays 2, 4, ..., 512, 2, 2, 4, ..., 512, 4, ... (11242
  seconds in all) before running the body again; the exception of the
  hundredth execution goes to the caller.  Logs, files and calls are the
  same on both sides. *)
Theorem X1_generateURL_is_one_retry_loop
  (coord : list float) (height width : Z)
  (dataset crs' output_dir start_date end_date band : string)
  (sharpened : bool) (w : world) :
generateURL float_str rem coord height width dataset crs' output_dir
            start_date end_date band sharpened w
= run_schedule (generateURL_body float_str rem coord height width dataset crs'
                                 output_dir start_date end_date band sharpened)
               nested_schedule w /\
length nested_schedule = 99%nat /\
fold_right Z.add 0 nested_schedule = 11242.
Proof.
split; [apply stacked_retry_is_one_loop | split; reflexivity].
Qed.



(** ** What a call downloads and writes *)



Lemma run_schedule_files (f : M unit)
  (Q : gmap string (list Byte.byte) -> gmap string (list Byte.byte) -> Prop) :
(forall w, files (snd (f w)) = files w \/
           (fst (f w) = Ok tt /\ Q (files w) (files (snd (f w))))) ->
forall delays w,
  files (snd (run_schedule f delays w)) = files w \/
  (fst (run_schedule f delays w) = Ok tt /\
   Q (files w) (files (snd (run_schedule f delays w)))).
Proof.
intros Hf. induction delays as [| d delays IH]; intros w.
- rewrite run_schedule_nil. apply Hf.
- cbn [run_schedule]. specialize (Hf w).
  destruct (f w) as [[v | e] w']; cbn [fst snd] in *; [exact Hf |].
  destruct Hf as [Hsame | [Hok _]]; [| discriminate].
  unfold mbind, M_bind, logging, sleep.
  match goal with
  | |- context [run_schedule f delays ?w0] =>
      destruct (IH w0) as [H | [Hok HQ]]; cbn [emit files] in *;
        rewrite Hsame in *; [left; exact H | right; split; [exact Hok | exact HQ]]
  end.
Qed.

Lemma generateURL_body_files (coord : list float) (height width : Z)
  (dataset crs' output_dir start_date end_date band : string) (sharpened : bool)
  (w : world) :
let out := generateURL_body float_str rem coord height width dataset crs' output_dir
                            start_date end_date band sharpened w in
files (snd out) = files w \/
(fst out = Ok tt /\
 exists lon lat c,
   coord = [lon; lat] /\
   files (snd out)
   = <[path_join output_dir (output_name float_str dataset lon lat) := c]> (files w)).
Proof.
cbv zeta.
destruct (build_request float_str coord height dataset start_date end_date band)
  as [req | e] eqn:Hreq.
2:{ left. unfold generateURL_body. rewrite Hreq. reflexivity. }
destruct (build_request_inv _ _ _ _ _ _ _ Hreq) as (entry & Hentry & -> & Hdesc).
destruct (dico_entry_shape dataset entry Hentry) as (n & c & lo & hi & _ & _ & Hlo & Hhi).
rewrite (generateURL_body_known _ _ height width dataset crs' output_dir
           start_date end_date band sharpened entry req lo hi w Hentry Hreq Hlo Hhi).
cbv zeta.
assert (Hdownload : forall i,
  let out := try_except (fetch rem i (req_geometry req) crs' output_dir height width
                           (req_description req) (req_description req))
                        logging_exception (emit (EvGetInfo (req_image req)) w) in
  files (snd out) = files w \/
  (fst out = Ok tt /\
   exists lon lat c,
     [req_lon req; req_lat req] = [lon; lat] /\
     files (snd out)
     = <[path_join output_dir (output_name float_str dataset lon lat) := c]> (files w))).
{ intros i. cbv zeta. rewrite try_fetch_outcome. cbv zeta.
  destruct (getDownloadUrl rem _ i _) as [url | e]; [| left; reflexivity].
  destruct (requests_get rem _ url) as [r | e]; [| left; reflexivity].
  destruct (status_code r =? 200); [| left; reflexivity].
  right. split; [reflexivity |].
  exists (req_lon req), (req_lat req), (content r). split; [reflexivity |].
  cbn [snd files emit]. unfold output_name. rewrite Hdesc. reflexivity. }
destruct (getInfo rem (trace w) (req_image req)) as [bands_list | e];
  [| left; reflexivity].
destruct (bool_decide (dataset = "gwl_fcs30")); [apply Hdownload |].
destruct (entry !! band) as [RGB |]; [| left; reflexivity].
destruct (py_iter RGB) as [wanted | e]; [| left; reflexivity].
destruct (forallb _ wanted); [apply Hdownload | left; reflexivity].
Qed.

(** X5.  Whatever the coordinate, the arguments, the service and the
  network do, a call leaves the files as they were or, in a call that
  returns normally, has written exactly one:
  [{output_dir}/{dataset}_image_{lat}_{lon}.tif].  It creates, changes or
  removes no other file, and a call that ends with an exception has
  written none. *)
Theorem X5_at_most_one_file_and_only_its_own
  (coord : list float) (height width : Z)
  (dataset crs' output_dir start_date end_date band : string) (sharpened : bool)
  (w : world) :
let out := generateURL float_str rem coord height width dataset crs' output_dir
                       start_date end_date band sharpened w in
files (snd out) = files w \/
(fst out = Ok tt /\
 exists lon lat c,
   coord = [lon; lat] /\
   files (snd out)
   = <[path_join output_dir (output_name float_str dataset lon lat) := c]> (files w)).
Proof.
cbv zeta. unfold generateURL. rewrite stacked_retry_is_one_loop.
apply (run_schedule_files _
         (fun before after => exists lon lat c, coord = [lon; lat] /\
            after = <[path_join output_dir (output_name float_str dataset lon lat) := c]>
                      before)).
intros w0. apply generateURL_body_files.
Qed.

(** X6.  The [sharpened] argument changes nothing: for every input and
  every behaviour of the service, the call with [sharpened=True] gives the
  result, the files, the log and the calls of the call with
  [sharpened=False]. *)
Theorem X6_sharpened_changes_nothing
  (coord : list float) (height width : Z)
  (dataset crs' output_dir start_date end_date band : string) (w : world) :
generateURL float_str rem coord height width dataset crs' output_dir
            start_date end_date band true w
= generateURL float_str rem coord height width dataset crs' output_dir
              start_date end_date band false w.
Proof.
unfold generateURL, retry.
apply retry_internal_ext. intros w0. apply retry_internal_ext. intros w1.
destruct (build_request float_str coord height dataset start_date end_date band)
  as [req | e] eqn:Hreq.
2:{ unfold generateURL_body. rewrite Hreq. reflexivity. }
destruct (build_request_inv _ _ _ _ _ _ _ Hreq) as (entry & Hentry & -> & _).
destruct (dico_entry_shape dataset entry Hentry) as (n & c & lo & hi & _ & _ & Hlo & Hhi).
rewrite !(generateURL_body_known _ _ height width dataset crs' output_dir
            start_date end_date band _ entry req lo hi w1 Hentry Hreq Hlo Hhi).
reflexivity.
Qed.

(** ** Inputs that cannot succeed *)

(** X7.  A coordinate row that does not have exactly two columns cannot be
  unpacked: every execution raises [ValueError] at line 84 before
  anything else happens, so the call makes no call to the service,
  sleeps through the whole nested schedule (over three hours) and then
  raises the [ValueError]. *)
Theorem X7_malformed_row_fails_after_the_full_schedule
  (coord : list float) (height width : Z)
  (dataset crs' output_dir start_date end_date band : string) (sharpened : bool)
  (w : world) :
length coord ≠ 2%nat ->
let out := generateURL float_str rem coord height width dataset crs' output_dir
                       start_date end_date band sharpened w in
fst out = Raise (ValueError "unpack") /\
calls (trace (snd out)) = calls (trace w) /\
sleeps (trace (snd out)) = sleeps (trace w) ++ nested_schedule /\
files (snd out) = files w.
Proof.
intros Hlen. cbv zeta.
assert (Hreq : build_request float_str coord height dataset start_date end_date band
               = Raise (ValueError "unpack")).
{ destruct coord as [| lon [| lat [| ? ?]]]; try reflexivity.
  cbn [length] in Hlen. contradiction. }
assert (Hbody : forall w0,
  generateURL_body float_str rem coord height width dataset crs' output_dir
                   start_date end_date band sharpened w0
  = (Raise (ValueError "unpack"), w0)).
{ intros w0. unfold generateURL_body. rewrite Hreq. reflexivity. }
unfold generateURL.
destruct (stacked_retry_failing calls
            (generateURL_body float_str rem coord height width dataset crs'
                              output_dir start_date end_date band sharpened)
            (ValueError "unpack") 0 calls_app (fun _ => eq_refl)) with (w := w)
  as (He & Hc & Hs).
{ intros w0. rewrite Hbody. cbn [fst snd]. repeat split. lia. }
split; [exact He | split; [lia | split; [exact Hs |]]].
rewrite stacked_retry_is_one_loop.
destruct (run_schedule_files
            (generateURL_body float_str rem coord height width dataset crs'
                              output_dir start_date end_date band sharpened)
            (fun _ _ => False)) with (delays := nested_schedule) (w := w)
  as [Hsame | [_ []]].
- intros w0. left. rewrite Hbody. reflexivity.
- exact Hsame.
Qed.




End Further.

(** ** The resume filter on what it finds in the directory *)






Lemma list_remove_Some (x : list float) (data rest : list (list float)) :
  list_remove x data = Some rest ->
  exists pre row post,
    data = pre ++ row :: post /\ rest = pre ++ post /\
    row_eqb row x = true /\ Forall (fun r => row_eqb r x = false) pre.
Proof.
  revert rest. induction data as [| y data IH]; intros rest H; [discriminate |].
  cbn [list_remove] in H. destruct (row_eqb y x) eqn:Hy.
  - injection H as <-. exists [], y, data. repeat split; [exact Hy | constructor].
  - destruct (list_remove x data) as [rest' |]; [| discriminate].
    injection H as <-.
    destruct (IH rest' eq_refl) as (pre & row & post & -> & -> & Hrow & Hpre).
    exists (y :: pre), row, post. repeat split; [exact Hrow | constructor; assumption].
Qed.

(** X11.  When the resume filter goes through, what it leaves is the
    coordinate list with exactly one coordinate taken out for each file of
    the directory, the others in their order.  So a directory that holds
    more files than the coordinate file has rows always makes it raise. *)
Theorem X11_resume_filter_takes_one_coordinate_per_file
    (filelist : list string) (data : list (list float)) :
  (forall left, resume_filter filelist data = Ok left ->
     sublist left data /\ length data = (length left + length filelist)%nat) /\
  ((length data < length filelist)%nat ->
     exists e, resume_filter filelist data = Raise e).
Proof.
  assert (H : forall left, resume_filter filelist data = Ok left ->
     sublist left data /\ length data = (length left + length filelist)%nat).
  { revert data. induction filelist as [| file filelist IH]; intros data left Hrun.
    - injection Hrun as <-. split; [reflexivity | cbn [length]; lia].
    - cbn [resume_filter] in Hrun. unfold resume_step in Hrun.
      destruct (file_coordinate file) as [x | e]; [| discriminate].
      cbn [mbind result_bind] in Hrun.
      destruct (list_remove x data) as [data' |] eqn:Hremove; [| discriminate].
      cbn [of_option] in Hrun.
      destruct (list_remove_Some x data data' Hremove)
        as (pre & row & post & -> & -> & _ & _).
      destruct (IH _ _ Hrun) as (Hsub & Hlen). split.
      + etransitivity; [exact Hsub |].
        apply sublist_app; [reflexivity | apply sublist_cons; reflexivity].
      + rewrite length_app in *. cbn [length]. lia. }
  split; [exact H |].
  intros Hmore. destruct (resume_filter filelist data) as [left | e]; [| eauto].
  destruct (H left eq_refl) as (_ & Hlen). lia.
Qed.

(** *** Reading back the names of the other datasets *)

Lemma append_cons (x : ascii) (a b : string) : String x a +:+ b = String x (a +:+ b).
Proof. reflexivity. Qed.

Lemma append_assoc (a b c : string) : (a +:+ b) +:+ c = a +:+ (b +:+ c).
Proof.
  induction a as [| x a IH]; [reflexivity |]. rewrite !append_cons, IH. reflexivity.
Qed.

Lemma append_nil_r (a : string) : a +:+ "" = a.
Proof.
  induction a as [| x a IH]; [reflexivity |]. rewrite append_cons, IH. reflexivity.
Qed.

Lemma count_char_cons_0 (c a : ascii) (s : string) :
  count_char c (String a s) = O -> a ≠ c /\ count_char c s = O.
Proof.
  cbn [count_char]. destruct (Ascii.eqb_spec a c) as [-> | Hne]; [discriminate |].
  intros H. split; [exact Hne | exact H].
Qed.

Lemma rev_app_rev_app (a b c : string) :
  String.rev_app (String.rev_app a b) c = String.rev_app b (a +:+ c).
Proof.
  revert b c. induction a as [| x a IH]; intros b c; [reflexivity |].
  rewrite append_cons. cbn [String.rev_app]. rewrite IH. reflexivity.
Qed.

Lemma rev_rev_app (a : string) : String.rev (String.rev_app a "") = a.
Proof. unfold String.rev. rewrite rev_app_rev_app. cbn [String.rev_app]. apply append_nil_r. Qed.

Lemma split_from_run (sep : ascii) (piece cur rest : string) :
  count_char sep piece = O ->
  PyStr.split_from sep cur (piece +:+ rest)
  = PyStr.split_from sep (String.rev_app piece cur) rest.
Proof.
  revert cur. induction piece as [| a piece IH]; intros cur Hcount; [reflexivity |].
  apply count_char_cons_0 in Hcount as [Hne Hcount].
  rewrite append_cons. cbn [PyStr.split_from String.rev_app].
  apply Ascii.eqb_neq in Hne. rewrite Hne. apply IH, Hcount.
Qed.

Lemma split_from_piece (sep : ascii) (piece rest : string) :
  count_char sep piece = O ->
  PyStr.split_from sep "" (piece +:+ String sep rest)
  = piece :: PyStr.split_from sep "" rest.
Proof.
  intros Hcount. rewrite (split_from_run sep piece "" _ Hcount).
  cbn [PyStr.split_from]. rewrite Ascii.eqb_refl, rev_rev_app. reflexivity.
Qed.

Lemma split_from_last (sep : ascii) (piece : string) :
  count_char sep piece = O -> PyStr.split_from sep "" piece = [piece].
Proof.
  intros Hcount. rewrite <- (append_nil_r piece) at 1.
  rewrite (split_from_run sep piece "" "" Hcount).
  cbn [PyStr.split_from]. rewrite rev_rev_app. reflexivity.
Qed.

Lemma prefix_t_append (a rest : string) :
  count_char "t" a = O -> String.prefix "t" rest = false ->
  String.prefix "t" (a +:+ rest) = false.
Proof.
  intros Hcount Hrest. destruct a as [| x a]; [exact Hrest |].
  apply count_char_cons_0 in Hcount as [Hne _].
  rewrite append_cons. cbn [String.prefix].
  destruct (ascii_dec "t" x) as [<- | _]; [contradiction | reflexivity].
Qed.

Lemma prefix_tif_after (a : ascii) (s : string) :
  String.prefix "t" s = false -> String.prefix ".tif" (String a s) = false.
Proof.
  intros Hs. cbn [String.prefix]. destruct (ascii_dec "." a); [| reflexivity].
  destruct s as [| b s]; [reflexivity |].
  cbn [String.prefix] in *. destruct (ascii_dec "t" b); [| reflexivity].
  destruct s; discriminate.
Qed.

Lemma replace_tif_run (a rest : string) :
  count_char "t" a = O -> String.prefix "t" rest = false ->
  PyStr.replace_from ".tif" "" O (a +:+ rest) = a +:+ PyStr.replace_from ".tif" "" O rest.
Proof.
  intros Hcount Hrest. induction a as [| x a IH]; [reflexivity |].
  apply count_char_cons_0 in Hcount as [Hne Hcount].
  rewrite !append_cons. cbn [PyStr.replace_from].
  rewrite (prefix_tif_after x (a +:+ rest) (prefix_t_append a rest Hcount Hrest)).
  rewrite (IH Hcount). reflexivity.
Qed.

Lemma replace_tif_no_dot (a rest : string) :
  count_char "." a = O ->
  PyStr.replace_from ".tif" "" O (a +:+ rest) = a +:+ PyStr.replace_from ".tif" "" O rest.
Proof.
  intros Hcount. induction a as [| x a IH]; [reflexivity |].
  apply count_char_cons_0 in Hcount as [Hne Hcount].
  rewrite !append_cons. cbn [PyStr.replace_from String.prefix].
  destruct (ascii_dec "." x) as [<- | _]; [contradiction |].
  rewrite (IH Hcount). reflexivity.
Qed.

Lemma output_name_pieces (float_str : float -> string) (dataset : string) (lon lat : float) :
  output_name float_str dataset lon lat
  = dataset +:+ String "_" ("image" +:+ String "_"
      (float_str lat +:+ String "_" (float_str lon +:+ ".tif"))).
Proof. unfold output_name. rewrite !append_assoc. reflexivity. Qed.

Lemma file_coordinate_output_name (float_str : float -> string) (dataset : string)
    (lon lat : float) :
  count_char "_" dataset = O -> count_char "." dataset = O ->
  renders float_str lon -> renders float_str lat ->
  file_coordinate (output_name float_str dataset lon lat) = Ok [lon; lat].
Proof.
  intros Hus Hdot (Hlon_us & Hlon_t & Hlon) (Hlat_us & Hlat_t & Hlat).
  unfold file_coordinate, PyStr.replace, PyStr.split.
  rewrite output_name_pieces.
  rewrite (replace_tif_no_dot dataset _ Hdot).
  change (PyStr.replace_from ".tif" "" O
            (String "_" ("image" +:+ String "_"
               (float_str lat +:+ String "_" (float_str lon +:+ ".tif")))))
    with (String "_" ("image" +:+ String "_"
            (PyStr.replace_from ".tif" "" O
               (float_str lat +:+ String "_" (float_str lon +:+ ".tif"))))).
  rewrite (replace_tif_run (float_str lat) (String "_" (float_str lon +:+ ".tif"))
             Hlat_t eq_refl).
  change (PyStr.replace_from ".tif" "" O (String "_" (float_str lon +:+ ".tif")))
    with (String "_" (PyStr.replace_from ".tif" "" O (float_str lon +:+ ".tif"))).
  rewrite (replace_tif_run (float_str lon) ".tif" Hlon_t eq_refl).
  change (PyStr.replace_from ".tif" "" O ".tif") with "".
  rewrite (split_from_piece "_" dataset _ Hus).
  rewrite (split_from_piece "_" "image" _ eq_refl).
  rewrite (split_from_piece "_" (float_str lat) _ Hlat_us).
  rewrite append_nil_r, (split_from_last "_" (float_str lon) Hlon_us).
  cbn [lookup list_lookup of_option mbind result_bind]. rewrite Hlat.
  cbn [of_option mbind result_bind]. rewrite Hlon. reflexivity.
Qed.

(** X12.  The resume filter recognises the files the exporter writes.  For
    a dataset whose name has no underscore and no dot ("landsat", "naip",
    "sentinel") and a coordinate whose two floats are rendered readably and
    equal themselves, the name [{dataset}_image_{lat}_{lon}.tif] parses
    back to the pair [[lon, lat]], and the file takes that coordinate out of
    the work list at its first occurrence. *)
Theorem X12_written_file_is_recognised
    (float_str : float -> string) (dataset : string) (lon lat : float)
    (rest : list string) (pre post : list (list float)) :
  count_char "_" dataset = O -> count_char "." dataset = O ->
  renders float_str lon -> renders float_str lat ->
  row_eqb [lon; lat] [lon; lat] = true ->
  Forall (fun r => row_eqb r [lon; lat] = false) pre ->
  file_coordinate (output_name float_str dataset lon lat) = Ok [lon; lat] /\
  resume_filter (output_name float_str dataset lon lat :: rest)
                (pre ++ [lon; lat] :: post)
  = resume_filter rest (pre ++ post).
Proof.
  intros Hus Hdot Hlon Hlat Hself Hpre.
  pose proof (file_coordinate_output_name float_str dataset lon lat Hus Hdot Hlon Hlat)
    as Hfile.
  split; [exact Hfile |].
  cbn [resume_filter]. unfold resume_step. rewrite Hfile.
  cbn [mbind result_bind].
  rewrite (list_remove_first [lon; lat] pre [lon; lat] post Hself Hpre). reflexivity.
Qed.




(** ** The bounding box of an empty chip *)

Lemma float_eqb_refl (x : float) : x ≠ S754_nan -> Float64.eqb x x = true.
Proof.
  intros Hnan. destruct x as [s | s | | s m e]; [| | contradiction |].
  - reflexivity.
  - destruct s; reflexivity.
  - unfold Float64.eqb, SFeqb, SFcompare.
    rewrite Z.compare_refl, Pos.compare_cont_refl. destruct s; reflexivity.
Qed.

Lemma float_add_sub_zero (x : float) (s : bool) :
  x ≠ S754_nan ->
  Float64.eqb (Float64.sub x (S754_zero s)) x = true /\
  Float64.eqb (Float64.add x (S754_zero s)) x = true.
Proof.
  intros Hnan. destruct x as [s' | s' | | s' m e]; [| | contradiction |].
  - destruct s, s'; split; reflexivity.
  - destruct s'; split; reflexivity.
  - split; apply (float_eqb_refl (S754_finite s' m e)); discriminate.
Qed.

Lemma angular_distance_of_nothing (res : pynum) :
  match res with
  | PyInt _ => True
  | PyFloat f => exists s m e, f = S754_zero s \/ f = S754_finite s m e
  end ->
  exists s, angular_distance (PyInt 0) res = PyFloat (S754_zero s).
Proof.
  destruct res as [z | f].
  - intros _. exists false. reflexivity.
  - intros (s & m & e & [-> | ->]); destruct s; eexists; reflexivity.
Qed.

(** X14.  A chip of zero pixels has no extent.  In binary64, for every
    latitude and longitude that is a number and every resolution that is an
    integer or a finite float, [boundingBox(lat, lon, 0, res)] is the point
    itself: [xMin == xMax == lon] and [yMin == yMax == lat]. *)
Theorem X14_zero_size_gives_a_point (lat lon : float) (res : pynum) :
  lat ≠ S754_nan -> lon ≠ S754_nan ->
  match res with
  | PyInt _ => True
  | PyFloat f => exists s m e, f = S754_zero s \/ f = S754_finite s m e
  end ->
  let '(xMin, xMax, yMin, yMax) :=
    boundingBox (PyFloat lat) (PyFloat lon) (PyInt 0) res in
  PyNum.eqb xMin (PyFloat lon) = true /\ PyNum.eqb xMax (PyFloat lon) = true /\
  PyNum.eqb yMin (PyFloat lat) = true /\ PyNum.eqb yMax (PyFloat lat) = true.
Proof.
  intros Hlat Hlon Hres. unfold boundingBox.
  destruct (angular_distance_of_nothing res Hres) as [s ->].
  cbn [num_sub num_add pynum_arith PyNum.sub PyNum.add PyNum.eqb PyNum.to_float].
  destruct (float_add_sub_zero lon s Hlon) as [H1 H2].
  destruct (float_add_sub_zero lat s Hlat) as [H3 H4].
  repeat split; assumption.
Qed.

(** ** A whole run against a service in good health *)




Section EndToEnd.

Variable float_str : float -> string.
Variable rem : remote.



End EndToEnd.

(** ** The dataset "gwl_fcs30" *)


Lemma build_request_gwl_fcs30 (float_str : float -> string) (coord : list float)
    (height : Z) (start_date end_date band band' : string) :
  build_request float_str coord height "gwl_fcs30" start_date end_date band
  = build_request float_str coord height "gwl_fcs30" start_date end_date band'.
Proof.
  unfold build_request, effective_resolution.
  replace (bool_decide ("gwl_fcs30" = "sentinel")) with false
    by (vm_compute; reflexivity).
  reflexivity.
Qed.

(** X17.  On "gwl_fcs30" neither the band group nor [sharpened] is looked
    at: whatever they are, a band group the table does not have included,
    the call gives the same result, files, log and calls. *)
Theorem X17_gwl_fcs30_ignores_band_and_sharpened
    (float_str : float -> string) (rem : remote)
    (coord : list float) (height width : Z)
    (crs' output_dir start_date end_date band band' : string)
    (sharpened sharpened' : bool) (w : world) :
  generateURL float_str rem coord height width "gwl_fcs30" crs' output_dir
              start_date end_date band sharpened w
  = generateURL float_str rem coord height width "gwl_fcs30" crs' output_dir
                start_date end_date band' sharpened' w.
Proof.
  unfold generateURL, retry.
  apply retry_internal_ext. intros w0. apply retry_internal_ext. intros w1.
  unfold generateURL_body.
  rewrite (build_request_gwl_fcs30 float_str coord height start_date end_date band band').
  replace (bool_decide ("gwl_fcs30" = "gwl_fcs30")) with true
    by (vm_compute; reflexivity).
  reflexivity.
Qed.


(** ** The further statements on sample runs *)




(** X7, witness: a row of one column. *)
Lemma X7_malformed_row_fails_after_the_full_schedule_witness :
  let out := generateURL Sample.show (Sample.healthy Sample.landsat_bands)
               [Sample.lon_a] 512 512 "landsat" "EPSG:3857" "output_images/"
               "2022-03-21" "2022-06-20" "RGB" false empty_world in
  fst out = Raise (ValueError "unpack") /\
  calls (trace (snd out)) = 0%nat /\
  sleeps (trace (snd out)) = nested_schedule /\
  files (snd out) = ∅.
Proof.
  cbv zeta.
  assert (Hlen : length [Sample.lon_a] ≠ 2%nat) by discriminate.
  exact (X7_malformed_row_fails_after_the_full_schedule Sample.show
           (Sample.healthy Sample.landsat_bands) [Sample.lon_a] 512 512 "landsat"
           "EPSG:3857" "output_images/" "2022-03-21" "2022-06-20" "RGB" false
           empty_world Hlen).
Defined.




(** X11, witness: one file against two coordinates, and two files against
    one coordinate. *)
Lemma X11_resume_filter_takes_one_coordinate_per_file_witness :
  sublist [Sample.coord_b] [Sample.coord_b; Sample.coord_a] /\
  exists e,
    resume_filter ["sentinel_image_35.5_-78.9.tif"; "sentinel_image_35.50001_-78.9.tif"]
                  [Sample.coord_a] = Raise e.
Proof.
  split.
  - assert (H : resume_filter ["sentinel_image_35.5_-78.9.tif"]
                              [Sample.coord_b; Sample.coord_a] = Ok [Sample.coord_b])
      by (vm_compute; reflexivity).
    exact (proj1 (proj1 (X11_resume_filter_takes_one_coordinate_per_file
                           ["sentinel_image_35.5_-78.9.tif"]
                           [Sample.coord_b; Sample.coord_a]) [Sample.coord_b] H)).
  - assert (H : (length [Sample.coord_a]
                 < length ["sentinel_image_35.5_-78.9.tif";
                           "sentinel_image_35.50001_-78.9.tif"])%nat)
      by (cbn [length]; lia).
    exact (proj2 (X11_resume_filter_takes_one_coordinate_per_file
                    ["sentinel_image_35.5_-78.9.tif"; "sentinel_image_35.50001_-78.9.tif"]
                    [Sample.coord_a]) H).
Defined.

(** X12, witness: the file of (-78.9, 35.5) for "sentinel". *)
Lemma X12_written_file_is_recognised_witness :
  file_coordinate (output_name Sample.show "sentinel" Sample.lon_a Sample.lat_a)
  = Ok Sample.coord_a /\
  resume_filter [output_name Sample.show "sentinel" Sample.lon_a Sample.lat_a]
                ([Sample.coord_b] ++ Sample.coord_a :: [])
  = Ok [Sample.coord_b].
Proof.
  assert (H1 : count_char "_" "sentinel" = O) by (vm_compute; reflexivity).
  assert (H2 : count_char "." "sentinel" = O) by (vm_compute; reflexivity).
  assert (H3 : renders Sample.show Sample.lon_a)
    by (repeat split; vm_compute; reflexivity).
  assert (H4 : renders Sample.show Sample.lat_a)
    by (repeat split; vm_compute; reflexivity).
  assert (H5 : row_eqb [Sample.lon_a; Sample.lat_a] [Sample.lon_a; Sample.lat_a] = true)
    by (vm_compute; reflexivity).
  assert (H6 : Forall (fun r => row_eqb r [Sample.lon_a; Sample.lat_a] = false)
                      [Sample.coord_b])
    by (repeat constructor).
  exact (X12_written_file_is_recognised Sample.show "sentinel" Sample.lon_a Sample.lat_a
           [] [Sample.coord_b] [] H1 H2 H3 H4 H5 H6).
Defined.


(** X14, witness: no pixels at 30 metres. *)
Lemma X14_zero_size_gives_a_point_witness :
  let '(xMin, xMax, yMin, yMax) :=
    boundingBox (PyFloat Sample.lat_a) (PyFloat Sample.lon_a) (PyInt 0) (PyInt 30) in
  PyNum.eqb xMin (PyFloat Sample.lon_a) = true /\
  PyNum.eqb xMax (PyFloat Sample.lon_a) = true /\
  PyNum.eqb yMin (PyFloat Sample.lat_a) = true /\
  PyNum.eqb yMax (PyFloat Sample.lat_a) = true.
Proof.
  assert (H1 : Sample.lat_a ≠ S754_nan) by (vm_compute; discriminate).
  assert (H2 : Sample.lon_a ≠ S754_nan) by (vm_compute; discriminate).
  exact (X14_zero_size_gives_a_point Sample.lat_a Sample.lon_a (PyInt 30) H1 H2 I).
Defined.



